(** * tap-iceberg: the incremental-scan stream of [tap_iceberg/streams.py]

    A shallow embedding of [IcebergTableStream]: the construction of the
    replication key from the table's sort order, the scan filter built
    from the starting replication value, the per-batch sort wrapper,
    the per-field formatters and the record formatter, and the
    [get_records] generator that ties them together. *)

From Stdlib Require Import Bool ZArith Ascii String List Sorting Permutation Lia.
From stdpp Require Import base gmap strings.
Import ListNotations.
Open Scope string_scope.

(* ------------------------------------------------------------------ *)
(** ** Python values *)

(** [datetime.date]. *)
Record date := mkDate { d_year : nat; d_month : nat; d_day : nat }.

(** [datetime.datetime]; [dt_tz] is the UTC offset of [tzinfo] in
    minutes, [None] for a naive datetime. *)
Record datetime := mkDatetime {
  dt_year : nat; dt_month : nat; dt_day : nat;
  dt_hour : nat; dt_minute : nat; dt_second : nat; dt_microsecond : nat;
  dt_tz : option Z }.

(** The Python values a record field or a stored cursor can hold. *)
Inductive Value :=
| VNone
| VBool (b : bool)
| VInt (z : Z)
| VStr (s : string)
| VBytes (s : string)
| VDate (d : date)
| VDatetime (d : datetime).

(** Python truthiness ([if v:]). *)
Definition truthy (v : Value) : bool :=
  match v with
  | VNone => false
  | VBool b => b
  | VInt z => negb (Z.eqb z 0)
  | VStr s | VBytes s => negb (String.eqb s "")
  | VDate _ | VDatetime _ => true
  end.

Inductive PyError :=
| KeyError (key : string)
| ValueError (msg : string)
| ValidationError (msg : string)   (* pyiceberg rejects an expression *)
| ArrowInvalid (msg : string).     (* pyarrow rejects an operation *)

Inductive result (A : Type) :=
| Ok (a : A)
| Err (e : PyError).
Arguments Ok {A} a.
Arguments Err {A} e.

(* ------------------------------------------------------------------ *)
(** ** [isoformat] *)

Fixpoint digits_aux (fuel n : nat) (acc : string) : string :=
  match fuel with
  | O => acc
  | S f =>
      let acc' := String (ascii_of_nat (48 + n mod 10)) acc in
      if Nat.ltb n 10 then acc' else digits_aux f (n / 10) acc'
  end.

Definition digits (n : nat) : string := digits_aux (S n) n "".

(** ["%0*d" % (w, n)]. *)
Definition zpad (w n : nat) : string :=
  let s := digits n in
  String.append (String.concat "" (List.repeat "0" (w - String.length s))) s.

(** [date.isoformat()]: ["%04d-%02d-%02d"]. *)
Definition date_isoformat (d : date) : string :=
  String.concat "-" [zpad 4 (d_year d); zpad 2 (d_month d); zpad 2 (d_day d)].

Definition dt_date_part (d : datetime) : string :=
  String.concat "-" [zpad 4 (dt_year d); zpad 2 (dt_month d); zpad 2 (dt_day d)].

Definition dt_time_part (d : datetime) : string :=
  String.append
    (String.concat ":" [zpad 2 (dt_hour d); zpad 2 (dt_minute d); zpad 2 (dt_second d)])
    (if Nat.eqb (dt_microsecond d) 0 then "" else String.append "." (zpad 6 (dt_microsecond d))).

(** The [+HH:MM] suffix of an aware datetime. *)
Definition tz_suffix (tz : option Z) : string :=
  match tz with
  | None => ""
  | Some off =>
      let sign := if Z.ltb off 0 then "-" else "+" in
      let a := Z.to_nat (Z.abs off) in
      String.append sign (String.concat ":" [zpad 2 (a / 60); zpad 2 (a mod 60)])
  end.

(** [datetime.isoformat()] (separator ["T"]). *)
Definition datetime_isoformat (d : datetime) : string :=
  String.append (dt_date_part d)
    (String.append "T" (String.append (dt_time_part d) (tz_suffix (dt_tz d)))).

(** [d.replace(tzinfo=None)]. *)
Definition replace_tzinfo_none (d : datetime) : datetime :=
  {| dt_year := dt_year d; dt_month := dt_month d; dt_day := dt_day d;
     dt_hour := dt_hour d; dt_minute := dt_minute d; dt_second := dt_second d;
     dt_microsecond := dt_microsecond d; dt_tz := None |}.

(** Python's [s[:n]]. *)
Definition str_prefix (n : nat) (s : string) : string := String.substring 0 n s.

(* ------------------------------------------------------------------ *)
(** ** Formatters ([_format_date], [_create_formatters], [_format_record]) *)

(** [_format_date]: [datetime] is a subclass of [date], so both take the
    first branch. *)
Definition _format_date (value : Value) : Value :=
  match value with
  | VDate d => VStr (str_prefix 10 (date_isoformat d))
  | VDatetime d => VStr (str_prefix 10 (datetime_isoformat d))
  | VStr s => VStr (str_prefix 10 s)
  | _ => VNone
  end.

(** One entry of [self.schema["properties"]]: [schema.get("format")] and
    [schema["type"]]. *)
Record FieldSchema := mkFieldSchema { s_format : option string; s_type : list string }.

(** The three lambdas of [_create_formatters]. *)
Inductive Formatter :=
| FDate        (* lambda x: self._format_date(x) *)
| FNullable    (* lambda x: x if x is not None else None *)
| FIdentity.   (* lambda x: x *)

Definition apply_formatter (f : Formatter) (x : Value) : Value :=
  match f with
  | FDate => _format_date x
  | FNullable => match x with VNone => VNone | _ => x end
  | FIdentity => x
  end.

Definition list_string_eqb (l1 l2 : list string) : bool :=
  bool_decide (l1 = l2).

(** The branch taken for one property. *)
Definition formatter_of (schema : FieldSchema) : Formatter :=
  if bool_decide (s_format schema = Some "date")
     && list_string_eqb (s_type schema) ["string"; "null"]
  then FDate
  else if bool_decide ("null" ∈ s_type schema) then FNullable
  else FIdentity.

(** [_create_formatters]: a dict filled in the order of the properties. *)
Definition _create_formatters (properties : list (string * FieldSchema))
  : gmap string Formatter :=
  fold_left (fun m '(field, schema) => <[field := formatter_of schema]> m)
    properties ∅.

Definition Row := list (string * Value).

(** [_format_record]: [formatters[field]] raises [KeyError] for a field
    that has no formatter. *)
Fixpoint _format_record (record : Row) (formatters : gmap string Formatter)
  : result Row :=
  match record with
  | [] => Ok []
  | (field, value) :: rest =>
      match formatters !! field with
      | None => Err (KeyError field)
      | Some f =>
          match _format_record rest formatters with
          | Ok r => Ok ((field, apply_formatter f value) :: r)
          | Err e => Err e
          end
      end
  end.

(* ------------------------------------------------------------------ *)
(** ** [RecordBatch.sort_by] *)

(** Lexicographic comparison of the fields of a date or datetime. *)
Fixpoint lex_compare (l1 l2 : list nat) : comparison :=
  match l1, l2 with
  | [], [] => Eq
  | [], _ :: _ => Lt
  | _ :: _, [] => Gt
  | a :: l1', b :: l2' =>
      match Nat.compare a b with
      | Eq => lex_compare l1' l2'
      | c => c
      end
  end.

Definition tz_key (tz : option Z) : list nat :=
  match tz with None => [] | Some z => [Z.to_nat (z + 1440)] end.

Definition date_key (d : date) : list nat := [d_year d; d_month d; d_day d].

Definition datetime_key (d : datetime) : list nat :=
  [dt_year d; dt_month d; dt_day d; dt_hour d; dt_minute d; dt_second d;
   dt_microsecond d] ++ tz_key (dt_tz d).

Definition value_rank (v : Value) : nat :=
  match v with
  | VNone => 0 | VBool _ => 1 | VInt _ => 2 | VStr _ => 3 | VBytes _ => 4
  | VDate _ => 5 | VDatetime _ => 6
  end.

(** The ascending order of an Arrow column on its values.  A column has a
    single type; values of different types (which never share a column)
    are ordered by their kind. *)
Definition value_compare (v w : Value) : comparison :=
  match v, w with
  | VBool a, VBool b => Nat.compare (Nat.b2n a) (Nat.b2n b)
  | VInt a, VInt b => Z.compare a b
  | VStr a, VStr b | VBytes a, VBytes b => String.compare a b
  | VDate a, VDate b => lex_compare (date_key a) (date_key b)
  | VDatetime a, VDatetime b => lex_compare (datetime_key a) (datetime_key b)
  | _, _ => Nat.compare (value_rank v) (value_rank w)
  end.

(** [row[key]], [None] for a missing column. *)
Fixpoint row_get (key : string) (row : Row) : option Value :=
  match row with
  | [] => None
  | (k, v) :: rest => if String.eqb k key then Some v else row_get key rest
  end.

Definition is_null (v : option Value) : bool :=
  match v with None | Some VNone => true | _ => false end.

(** Ascending, nulls at the end ([null_placement="at_end"], the
    default of [sort_by]). *)
Definition key_le (a b : option Value) : bool :=
  match is_null a, is_null b with
  | true, bnull => bnull
  | false, true => true
  | false, false =>
      match a, b with
      | Some x, Some y =>
          match value_compare x y with Gt => false | _ => true end
      | _, _ => true
      end
  end.

Definition row_le (key : string) (r1 r2 : Row) : bool :=
  key_le (row_get key r1) (row_get key r2).

(** A stable sort (Arrow's [sort_indices] is stable): insertion that keeps
    an element before the equal elements that follow it in the input. *)
Fixpoint insert {A} (le : A -> A -> bool) (x : A) (l : list A) : list A :=
  match l with
  | [] => [x]
  | y :: l' => if le x y then x :: y :: l' else y :: insert le x l'
  end.

Fixpoint isort {A} (le : A -> A -> bool) (l : list A) : list A :=
  match l with
  | [] => []
  | x :: l' => insert le x (isort le l')
  end.

(** A [pa.RecordBatch] as the rows of its [to_pylist()]. *)
Definition Batch := list Row.

(** A [pa.RecordBatchReader]: its schema (the column names every batch
    has) and the batches it yields, in order. *)
Record Reader := mkReader { reader_schema : list string; reader_batches : list Batch }.

(** [batch.sort_by(sort_key)] on a batch with the given columns: pyarrow
    raises [ArrowInvalid] when [sort_key] is not a column. *)
Definition sort_by (columns : list string) (batch : Batch) (sort_key : string)
  : result Batch :=
  if bool_decide (sort_key ∈ columns) then Ok (isort (row_le sort_key) batch)
  else Err (ArrowInvalid "No match for FieldRef.Name").

(** The batches a lazy batch source yields, in order, and the exception
    raised when the next one is pulled, if any. *)
Definition BatchStream := (list Batch * option PyError)%type.

(** [sorted_batch_generator]: [batch.sort_by(sort_key)] for each batch of
    the reader, in order, stopping at the first that raises. *)
Fixpoint sorted_batch_generator (columns : list string) (batches : list Batch)
  (sort_key : string) : BatchStream :=
  match batches with
  | [] => ([], None)
  | batch :: rest =>
      match sort_by columns batch sort_key with
      | Err e => ([], Some e)
      | Ok b =>
          let '(out, err) := sorted_batch_generator columns rest sort_key in
          (b :: out, err)
      end
  end.

(** [_create_sorted_batch_reader]: [RecordBatchReader.from_batches] over
    the generator, with the reader's schema. *)
Definition _create_sorted_batch_reader (reader : Reader) (sort_key : string)
  : BatchStream :=
  sorted_batch_generator (reader_schema reader) (reader_batches reader) sort_key.

(* ------------------------------------------------------------------ *)
(** ** The Iceberg table and the stream *)

Inductive SortDirection := Asc | Desc.

(** A [SortField] of the table's [sort_order()]. *)
Record SortField := mkSortField { source_id : nat; direction : SortDirection }.

(** The parts of [pyiceberg.table.Table] the stream reads: the schema's
    fields (id, name) and the sort order's fields. *)
Record Table := mkTable {
  tbl_fields : list (nat * string);
  tbl_sort_fields : list SortField }.

(** [schema().find_field(id).name]. *)
Definition find_field (t : Table) (id : nat) : option string :=
  option_map snd (List.find (fun p => Nat.eqb (fst p) id) (tbl_fields t)).

Record Stream := mkStream {
  iceberg_table : Table;
  replication_key : option string;
  properties : list (string * FieldSchema) }.

(** [IcebergTableStream.__init__]: [Stream.__init__] leaves the
    replication key unset; it is set when the sort order has exactly one
    field ([find_field] raises on an unknown id). *)
Definition init_stream (t : Table) (props : list (string * FieldSchema))
  : result Stream :=
  match tbl_sort_fields t with
  | [f] =>
      match find_field t (source_id f) with
      | Some name => Ok (mkStream t (Some name) props)
      | None => Err (ValueError "Could not find field")
      end
  | _ => Ok (mkStream t None props)
  end.

(** The host's [apply_catalog] assigns the catalog entry's
    [replication_key] to the stream. *)
Definition apply_catalog_replication_key (s : Stream) (k : option string) : Stream :=
  mkStream (iceberg_table s) k (properties s).

(** [SortOrder.is_unsorted]: [len(self.fields) == 0]. *)
Definition is_unsorted (t : Table) : bool :=
  match tbl_sort_fields t with [] => true | _ => false end.

(** The [is_sorted] property. *)
Definition is_sorted (s : Stream) : bool := negb (is_unsorted (iceberg_table s)).

(** Truthiness of [self.replication_key] ([None] or a string). *)
Definition key_truthy (k : option string) : bool :=
  match k with None => false | Some name => negb (String.eqb name "") end.

Definition key_name (k : option string) : string :=
  match k with None => "" | Some name => name end.

(* ------------------------------------------------------------------ *)
(** ** The scan filter and [get_records] *)

(** [pyiceberg.expressions]: [AlwaysTrue()] and
    [GreaterThan(term, literal)] on a column name. *)
Inductive Expr :=
| AlwaysTrue
| GreaterThan (term : string) (literal : Value).

Section Scan.

(** [datetime.fromisoformat], [None] where it raises [ValueError]; the
    strings it accepts depend on the Python version, so the development
    is parametric in it. *)
Variable fromisoformat : string -> option datetime.

(** Lines 55-69 of [get_records]: a string start value is parsed first
    (lines 65-68), then [GreaterThan(self.replication_key, start_value)]
    is built (line 69); pyiceberg rejects a [None] term, so a stream
    without a replication key raises there, before any scan. *)
Definition build_filter (replication_key : option string) (start_value : Value)
  : result Expr :=
  if truthy start_value then
    let literal :=
      match start_value with
      | VStr s =>
          match fromisoformat s with
          | Some d => Ok (VStr (datetime_isoformat (replace_tzinfo_none d)))
          | None => Err (ValueError "Invalid isoformat string")
          end
      | v => Ok v
      end in
    match literal with
    | Err e => Err e
    | Ok lit =>
        match replication_key with
        | Some k => Ok (GreaterThan k lit)
        | None => Err (ValidationError "term must be a string or a bound term")
        end
    end
  else Ok AlwaysTrue.

(** Lines 74-78 of [get_records]: sort by batch if the replication key
    is set and the table is not sorted. *)
Definition sort_wrapper (s : Stream) (batch_reader : Reader) : BatchStream :=
  if key_truthy (replication_key s) && negb (is_sorted s)
  then _create_sorted_batch_reader batch_reader (key_name (replication_key s))
  else (reader_batches batch_reader, None).

(** Lines 55-78 of [get_records]: the filter, the table scan
    ([scan(row_filter=...).to_arrow_batch_reader()], supplied by the
    table layer as [scan]) and the sort wrapper.  [start_value] is what
    [get_starting_replication_key_value(context)] returned. *)
Definition get_batches (s : Stream) (start_value : Value)
  (scan : Expr -> Reader) : result BatchStream :=
  match build_filter (replication_key s) start_value with
  | Err e => Err e
  | Ok filter_expression => Ok (sort_wrapper s (scan filter_expression))
  end.

(** The records yielded by the loop over the rows, and the exception
    that ends the generator, if any. *)
Fixpoint emit_records (rows : list Row) (formatters : gmap string Formatter)
  : list Row * option PyError :=
  match rows with
  | [] => ([], None)
  | record :: rest =>
      match _format_record record formatters with
      | Err e => ([], Some e)
      | Ok r => let '(out, err) := emit_records rest formatters in (r :: out, err)
      end
  end.

(** [get_records]: the records the generator yields, in order, and the
    exception it raises when it does: a record that cannot be formatted,
    or else the batch source's own exception after its last batch. *)
Definition get_records (s : Stream) (start_value : Value)
  (scan : Expr -> Reader) : list Row * option PyError :=
  match get_batches s start_value scan with
  | Err e => ([], Some e)
  | Ok (batches, reader_err) =>
      let formatters := _create_formatters (properties s) in
      match emit_records (concat batches) formatters with
      | (out, Some e) => (out, Some e)
      | (out, None) => (out, reader_err)
      end
  end.

End Scan.

(** ** The starting value from the SDK

    [get_records] receives [get_starting_replication_key_value(context)],
    the value the Singer SDK's [_write_starting_replication_value] stored
    before the sync: nothing for a stream without a replication key;
    otherwise the bookmarked value when it is truthy and bookmarked for the
    same key, replaced by or compared with a truthy [start_date] from the
    config. *)

Record BookmarkState := mkBookmarkState {
  bm_replication_key : option string;
  bm_replication_key_value : Value
}.

Definition starting_replication_value (compare_start_date : Value -> Value -> Value)
  (s : Stream) (state : BookmarkState) (start_date : Value) : Value :=
  if key_truthy (replication_key s) then
    let value :=
      if truthy (bm_replication_key_value state)
         && bool_decide (replication_key s = bm_replication_key state)
      then bm_replication_key_value state else VNone in
    if truthy start_date then
      (if truthy value then compare_start_date value start_date else start_date)
    else value
  else VNone.

(* ------------------------------------------------------------------ *)
(** ** A concrete [fromisoformat] for the examples *)

(** The format every supported Python version accepts and [isoformat]
    produces: [YYYY-MM-DD], optionally followed by a [T] or space and
    [HH:MM:SS], optionally followed by a [+HH:MM] or [-HH:MM] offset. *)
Definition digit_of (c : ascii) : option nat :=
  let n := nat_of_ascii c in
  if Nat.leb 48 n && Nat.leb n 57 then Some (n - 48) else None.

Fixpoint num_of_aux (acc : nat) (cs : list ascii) : option nat :=
  match cs with
  | [] => Some acc
  | c :: cs' =>
      match digit_of c with
      | Some d => num_of_aux (acc * 10 + d) cs'
      | None => None
      end
  end.

Definition num_of (cs : list ascii) : option nat := num_of_aux 0 cs.

Definition parse_offset (cs : list ascii) : option (option Z) :=
  match cs with
  | [] => Some None
  | [sg; h1; h2; c; m1; m2] =>
      if Ascii.eqb c ":" then
        match num_of [h1; h2], num_of [m1; m2] with
        | Some h, Some m =>
            if Nat.ltb h 24 && Nat.ltb m 60 then
              let off := Z.of_nat (h * 60 + m) in
              if Ascii.eqb sg "+" then Some (Some off)
              else if Ascii.eqb sg "-" then Some (Some (- off)%Z)
              else None
            else None
        | _, _ => None
        end
      else None
  | _ => None
  end.

Definition fromisoformat_basic (s : string) : option datetime :=
  match list_ascii_of_string s with
  | y1 :: y2 :: y3 :: y4 :: c1 :: mo1 :: mo2 :: c2 :: dd1 :: dd2 :: rest =>
      match num_of [y1; y2; y3; y4], num_of [mo1; mo2], num_of [dd1; dd2] with
      | Some y, Some mo, Some dd =>
          if Ascii.eqb c1 "-" && Ascii.eqb c2 "-" && Nat.leb 1 y
             && Nat.leb 1 mo && Nat.leb mo 12 && Nat.leb 1 dd && Nat.leb dd 31
          then
            match rest with
            | [] => Some (mkDatetime y mo dd 0 0 0 0 None)
            | sep :: h1 :: h2 :: c3 :: mi1 :: mi2 :: c4 :: s1 :: s2 :: tz =>
                match num_of [h1; h2], num_of [mi1; mi2], num_of [s1; s2],
                      parse_offset tz with
                | Some h, Some mi, Some sec, Some off =>
                    if (Ascii.eqb sep "T" || Ascii.eqb sep " ")
                       && Ascii.eqb c3 ":" && Ascii.eqb c4 ":"
                       && Nat.ltb h 24 && Nat.ltb mi 60 && Nat.ltb sec 60
                    then Some (mkDatetime y mo dd h mi sec 0 off)
                    else None
                | _, _, _, _ => None
                end
            | _ => None
            end
          else None
      | _, _, _ => None
      end
  | _ => None
  end.

(* ------------------------------------------------------------------ *)
(** ** Reading the stream's schema *)

(** [self.schema["properties"][field]]: a dict built from the items, so
    the last item with that name wins. *)
Definition last_binding (field : string) (props : list (string * FieldSchema))
  : option FieldSchema :=
  fold_left (fun acc '(k, schema) => if String.eqb k field then Some schema else acc)
    props None.

(** The reading of "the table is already sorted on the replication key"
    used to state the sort condition: the table's sort order leads with
    that field. *)
Definition table_sorted_on (t : Table) (k : string) : bool :=
  match tbl_sort_fields t with
  | f :: _ => bool_decide (find_field t (source_id f) = Some k)
  | [] => false
  end.

(* ================================================================== *)
(** * Properties *)

(** ** Formatters *)

Lemma create_formatters_lookup_aux (field : string) props :
  forall (m : gmap string Formatter) acc,
  m !! field = option_map formatter_of acc ->
  fold_left (fun m '(f, schema) => <[f := formatter_of schema]> m) props m !! field
  = option_map formatter_of
      (fold_left (fun acc '(k, schema) => if String.eqb k field then Some schema else acc)
         props acc).
Proof.
  induction props as [| [k schema] props IH]; intros m acc Hm; simpl; [exact Hm |].
  apply IH. destruct (String.eqb_spec k field) as [-> | Hne].
  - by rewrite lookup_insert_eq.
  - by rewrite lookup_insert_ne.
Qed.

(** The formatter of a field is the one of its (last) schema entry. *)
Lemma create_formatters_lookup (field : string) props :
  _create_formatters props !! field = option_map formatter_of (last_binding field props).
Proof. apply create_formatters_lookup_aux. reflexivity. Qed.

Lemma formatter_of_FDate (schema : FieldSchema) :
  formatter_of schema = FDate <->
  s_format schema = Some "date" /\ s_type schema = ["string"; "null"].
Proof.
  unfold formatter_of, list_string_eqb.
  destruct (bool_decide (s_format schema = Some "date")) eqn:E1;
  destruct (bool_decide (s_type schema = ["string"; "null"])) eqn:E2;
  apply bool_decide_eq_true in E1 || apply bool_decide_eq_false in E1;
  apply bool_decide_eq_true in E2 || apply bool_decide_eq_false in E2;
  simpl; try (case_match); intuition congruence.
Qed.

Lemma format_record_ok_identity (props : list (string * FieldSchema)) (record : Row) :
  (forall f v, In (f, v) record ->
     exists schema, last_binding f props = Some schema /\ formatter_of schema <> FDate) ->
  _format_record record (_create_formatters props) = Ok record.
Proof.
  induction record as [| [f v] record IH]; intros H; simpl; [reflexivity |].
  destruct (H f v (or_introl eq_refl)) as [schema [Hs Hf]].
  rewrite create_formatters_lookup, Hs. simpl.
  rewrite IH by (intros f' v' Hin; apply (H f' v'); right; exact Hin).
  destruct (formatter_of schema); [congruence | | reflexivity].
  destruct v; reflexivity.
Qed.

(** C6: a nullable date field (format ["date"], type [["string", "null"]])
    gets the date-truncation rule, which maps [None] to [None],
    ["2023-05-17T10:00:00"] to ["2023-05-17"] and [date(2023, 5, 17)] to
    ["2023-05-17"]. *)
Theorem format_date_nullable_examples :
  formatter_of (mkFieldSchema (Some "date") ["string"; "null"]) = FDate /\
  apply_formatter FDate VNone = VNone /\
  apply_formatter FDate (VStr "2023-05-17T10:00:00") = VStr "2023-05-17" /\
  apply_formatter FDate (VDate (mkDate 2023 5 17)) = VStr "2023-05-17".
Proof. vm_compute. repeat split. Qed.

(** C7 fails: a date field declared nullable as [["null", "string"]]
    does not get the date-truncation rule. *)
Lemma create_formatters_nullable_date_not_truncated :
  s_format (mkFieldSchema (Some "date") ["null"; "string"]) = Some "date" /\
  "null" ∈ s_type (mkFieldSchema (Some "date") ["null"; "string"]) /\
  _create_formatters [("d", mkFieldSchema (Some "date") ["null"; "string"])] !! "d"
  = Some FNullable.
Proof.
  split; [reflexivity |]. split; [by left |]. vm_compute. reflexivity.
Qed.

(** C7 (amended): a field gets the date-truncation rule exactly when its
    schema entry has format ["date"] and its type is exactly the list
    [["string", "null"]]. *)
Theorem create_formatters_date_rule (props : list (string * FieldSchema)) (field : string) :
  _create_formatters props !! field = Some FDate <->
  exists schema, last_binding field props = Some schema /\
    s_format schema = Some "date" /\ s_type schema = ["string"; "null"].
Proof.
  rewrite create_formatters_lookup. split.
  - destruct (last_binding field props) as [schema |]; simpl; [| discriminate].
    intros Hf. injection Hf as Hf. apply formatter_of_FDate in Hf. eauto.
  - intros [schema [-> Hf]]. simpl. f_equal. by apply formatter_of_FDate.
Qed.

(** The test of [_format_date] for "a date or datetime, or a string". *)
Definition is_date_or_str (v : Value) : bool :=
  match v with VDate _ | VDatetime _ | VStr _ => true | _ => false end.

(** C8: [_format_date] maps every value that is neither a date, a
    datetime nor a string to [None] (it has no failing branch). *)
Theorem format_date_fallback_none (v : Value) :
  is_date_or_str v = false -> _format_date v = VNone.
Proof. destruct v; simpl; congruence. Qed.

Lemma format_date_fallback_none_witness :
  is_date_or_str (VInt 20230517) = false /\ _format_date (VInt 20230517) = VNone.
Proof.
  split; [reflexivity |]. apply format_date_fallback_none. reflexivity.
Defined.

(** C9: a record whose fields all have a schema entry, with no [None]
    value and no nullable date field, is formatted to itself. *)
Theorem format_record_identity (props : list (string * FieldSchema)) (record : Row) :
  (forall f v, In (f, v) record -> exists schema, last_binding f props = Some schema) ->
  (forall f v, In (f, v) record -> v <> VNone) ->
  (forall f v schema, In (f, v) record -> last_binding f props = Some schema ->
     ~ (s_format schema = Some "date" /\ "null" ∈ s_type schema)) ->
  _format_record record (_create_formatters props) = Ok record.
Proof.
  intros Hall _ Hnd. apply format_record_ok_identity.
  intros f v Hin. destruct (Hall f v Hin) as [schema Hs].
  exists schema. split; [exact Hs |]. intros Hf.
  apply formatter_of_FDate in Hf as [Hfmt Hty].
  apply (Hnd f v schema Hin Hs). split; [exact Hfmt |]. rewrite Hty. right. left.
Qed.

Definition example_props : list (string * FieldSchema) :=
  [("id", mkFieldSchema None ["integer"]);
   ("name", mkFieldSchema None ["string"; "null"]);
   ("ts", mkFieldSchema (Some "date") ["string"; "null"])].

Definition example_row : Row := [("id", VInt 1); ("name", VStr "x")].

Lemma format_record_identity_witness :
  _format_record example_row (_create_formatters example_props) = Ok example_row.
Proof.
  apply format_record_identity.
  - intros f v [H | [H | []]]; injection H as <- <-; eexists; reflexivity.
  - intros f v [H | [H | []]]; injection H as <- <-; discriminate.
  - intros f v schema [H | [H | []]]; injection H as <- <-; vm_compute;
      intros Hs; injection Hs as <-; simpl; intros [Hf _]; discriminate.
Defined.

(** C10: [_format_record] with the formatters of the schema either
    succeeds, and then every field of the row has a schema entry and the
    output has the row's keys in the row's order, or fails with a
    [KeyError] on a field of the row that has no schema entry. *)
Theorem format_record_keys (props : list (string * FieldSchema)) (record : Row) :
  match _format_record record (_create_formatters props) with
  | Ok r => map fst r = map fst record /\
            Forall (fun f => last_binding f props <> None) (map fst record)
  | Err e => exists f, e = KeyError f /\ In f (map fst record) /\
             last_binding f props = None
  end.
Proof.
  induction record as [| [f v] record IH]; simpl; [split; [reflexivity | constructor] |].
  rewrite create_formatters_lookup.
  destruct (last_binding f props) as [schema |] eqn:Hb; simpl.
  - destruct (_format_record record (_create_formatters props)) as [r | e].
    + destruct IH as [Hk Hall]. simpl. split; [by rewrite Hk |].
      constructor; [congruence | exact Hall].
    + destruct IH as [g [He [Hin Hg]]]. exists g. eauto.
  - exists f. eauto.
Qed.

Example format_record_extra_field :
  _format_record [("id", VInt 1); ("extra", VInt 2)] (_create_formatters example_props)
  = Err (KeyError "extra").
Proof. vm_compute. reflexivity. Qed.

(** ** The stable sort *)

Section InsertionSort.

Context {A : Type} (le : A -> A -> bool).
Hypothesis le_total : forall x y, le x y = false -> le y x = true.

Let R := fun x y => le x y = true.

Lemma insert_perm (x : A) (l : list A) : Permutation (x :: l) (insert le x l).
Proof.
  induction l as [| y l IH]; simpl; [reflexivity |].
  destruct (le x y); [reflexivity |].
  etransitivity; [apply perm_swap |]. constructor. exact IH.
Qed.

Lemma isort_perm (l : list A) : Permutation l (isort le l).
Proof.
  induction l as [| x l IH]; simpl; [reflexivity |].
  etransitivity; [constructor; exact IH | apply insert_perm].
Qed.

Lemma insert_sorted (x : A) (l : list A) : Sorted R l -> Sorted R (insert le x l).
Proof.
  induction 1 as [| y l Hs IH Hhd]; simpl.
  - repeat constructor.
  - destruct (le x y) eqn:Hxy.
    + constructor; [constructor; assumption | constructor; exact Hxy].
    + constructor; [exact IH |].
      destruct l as [| z l]; simpl.
      * constructor. apply le_total. exact Hxy.
      * inversion Hhd as [| ? ? Hyz]; subst.
        destruct (le x z); constructor; [apply le_total; exact Hxy | exact Hyz].
Qed.

Lemma isort_sorted (l : list A) : Sorted R (isort le l).
Proof.
  induction l as [| x l IH]; simpl; [constructor | apply insert_sorted; exact IH].
Qed.

End InsertionSort.

Lemma lex_compare_antisym (l1 l2 : list nat) :
  lex_compare l2 l1 = CompOpp (lex_compare l1 l2).
Proof.
  revert l2; induction l1 as [| a l1 IH]; intros [| b l2]; simpl; try reflexivity.
  rewrite (Nat.compare_antisym a b).
  destruct (Nat.compare a b); simpl; [apply IH | reflexivity | reflexivity].
Qed.

Lemma value_compare_antisym (v w : Value) :
  value_compare w v = CompOpp (value_compare v w).
Proof.
  destruct v, w; cbn [value_compare];
    first [ reflexivity | apply Nat.compare_antisym | apply Z.compare_antisym
          | apply String.compare_antisym | apply lex_compare_antisym ].
Qed.

Lemma row_le_total (key : string) (r1 r2 : Row) :
  row_le key r1 r2 = false -> row_le key r2 r1 = true.
Proof.
  unfold row_le, key_le.
  destruct (is_null (row_get key r1)) eqn:Ha, (is_null (row_get key r2)) eqn:Hb;
    try discriminate; try reflexivity.
  destruct (row_get key r1) as [x |], (row_get key r2) as [y |];
    try discriminate; try reflexivity.
  rewrite (value_compare_antisym x y).
  destruct (value_compare x y); simpl; congruence.
Qed.

(** With a sort key that is a column, the generator sorts every batch and
    raises nothing. *)
Lemma sorted_batch_generator_column (columns : list string) (batches : list Batch)
  (sort_key : string) :
  sort_key ∈ columns ->
  sorted_batch_generator columns batches sort_key
  = (map (isort (row_le sort_key)) batches, None).
Proof.
  intros Hk. induction batches as [| b batches IH]; simpl; [reflexivity |].
  unfold sort_by. rewrite bool_decide_eq_true_2 by exact Hk. rewrite IH. reflexivity.
Qed.

(** C3: when the sort key is a column of the reader's schema, the sorted
    reader raises nothing and yields, for each input batch and in the
    input order, one batch that is a permutation of it, sorted ascending
    on the sort key (nulls last); each batch is sorted on its own. *)
Theorem sorted_batch_reader_spec (reader : Reader) (sort_key : string) :
  sort_key ∈ reader_schema reader ->
  snd (_create_sorted_batch_reader reader sort_key) = None /\
  Forall2 (fun b b' => Permutation b b' /\
             Sorted (fun r1 r2 => row_le sort_key r1 r2 = true) b')
    (reader_batches reader) (fst (_create_sorted_batch_reader reader sort_key)).
Proof.
  intros Hk. unfold _create_sorted_batch_reader.
  rewrite sorted_batch_generator_column by exact Hk. split; [reflexivity |]. simpl.
  induction (reader_batches reader) as [| b bs IH]; simpl; constructor; [| exact IH].
  split; [apply isort_perm | apply isort_sorted, row_le_total].
Qed.

Definition reader_three_batches : Reader :=
  mkReader ["ts"]
    [[[("ts", VInt 5)]; [("ts", VInt 2)]];
     [[("ts", VInt 1)]; [("ts", VNone)]; [("ts", VInt 0)]];
     [[("ts", VInt 9)]; [("ts", VInt 3)]]].

Lemma sorted_batch_reader_spec_witness :
  snd (_create_sorted_batch_reader reader_three_batches "ts") = None /\
  Forall2 (fun b b' => Permutation b b' /\
             Sorted (fun r1 r2 => row_le "ts" r1 r2 = true) b')
    (reader_batches reader_three_batches)
    (fst (_create_sorted_batch_reader reader_three_batches "ts")).
Proof. apply sorted_batch_reader_spec. by left. Defined.

(** The three-batch example: each batch comes out sorted on [ts], the
    batches keep their order, and nothing orders rows across batches. *)
Example sorted_batch_reader_three_batches :
  _create_sorted_batch_reader reader_three_batches "ts"
  = ([[[("ts", VInt 2)]; [("ts", VInt 5)]];
      [[("ts", VInt 0)]; [("ts", VInt 1)]; [("ts", VNone)]];
      [[("ts", VInt 3)]; [("ts", VInt 9)]]], None).
Proof. vm_compute. reflexivity. Qed.

(** ** The sort wrapper in [get_records] *)

Definition table_a : Table :=
  mkTable [(1, "a"); (2, "b")] [mkSortField 1 Asc].

Definition batch_b : Batch := [[("b", VInt 2)]; [("b", VInt 1)]].

Definition reader_b : Reader := mkReader ["b"] [batch_b].

(** C1 fails: the table's sort order is on [a], the catalog sets the
    replication key to [b]; the key is set and the table is not sorted on
    it, yet the batches are passed through unsorted. *)
Lemma get_batches_no_sort_on_other_key :
  init_stream table_a [] = Ok (mkStream table_a (Some "a") []) /\
  let s := apply_catalog_replication_key (mkStream table_a (Some "a") []) (Some "b") in
  key_truthy (replication_key s) = true /\
  table_sorted_on table_a "b" = false /\
  get_batches fromisoformat_basic s VNone (fun _ => reader_b) = Ok ([batch_b], None) /\
  _create_sorted_batch_reader reader_b "b" <> ([batch_b], None).
Proof. vm_compute. repeat split. discriminate. Qed.

(** C1 (amended): the batches are sorted one by one on the replication key
    exactly when that key is set (a non-empty name) and the table's sort
    order has no field; otherwise they are passed through unchanged. *)
Theorem get_batches_sort_condition (fromisoformat : string -> option datetime)
  (s : Stream) (start_value : Value) (scan : Expr -> Reader) (e : Expr) :
  build_filter fromisoformat (replication_key s) start_value = Ok e ->
  get_batches fromisoformat s start_value scan =
  Ok (match replication_key s with
      | Some k =>
          if negb (String.eqb k "") && bool_decide (tbl_sort_fields (iceberg_table s) = [])
          then _create_sorted_batch_reader (scan e) k
          else (reader_batches (scan e), None)
      | None => (reader_batches (scan e), None)
      end).
Proof.
  intros He. unfold get_batches, sort_wrapper, is_sorted, is_unsorted. rewrite He.
  destruct (replication_key s) as [k |]; simpl; [| reflexivity].
  destruct (String.eqb k ""); simpl; [reflexivity |].
  destruct (tbl_sort_fields (iceberg_table s)); reflexivity.
Qed.

Lemma get_batches_sort_condition_witness :
  get_batches fromisoformat_basic (mkStream (mkTable [(1, "b")] []) (Some "b") [])
    VNone (fun _ => reader_b)
  = Ok ([[[("b", VInt 1)]; [("b", VInt 2)]]], None).
Proof.
  rewrite (get_batches_sort_condition fromisoformat_basic _ _ _ AlwaysTrue)
    by reflexivity.
  vm_compute. reflexivity.
Defined.

(** A stream whose key comes from [__init__] alone has a one-field sort
    order, so it is never sorted by batch. *)
Lemma init_stream_never_sorts (t : Table) props (s : Stream) :
  init_stream t props = Ok s ->
  key_truthy (replication_key s) && negb (is_sorted s) = false.
Proof.
  unfold init_stream, is_sorted, is_unsorted.
  destruct (tbl_sort_fields t) as [| f [| g l]] eqn:Hf.
  - intros H. injection H as <-. reflexivity.
  - destruct (find_field t (source_id f)); intros H; [| discriminate].
    injection H as <-. simpl. rewrite Hf. apply andb_false_r.
  - intros H. injection H as <-. reflexivity.
Qed.

(** ** The scan filter *)

Lemma string_append_empty_r (x : string) : String.append x "" = x.
Proof.
  induction x as [| c x IH]; [reflexivity |].
  change (String c (String.append x "") = String c x). by rewrite IH.
Qed.

(** The re-encoded cursor has no UTC offset: it is the date part, ["T"]
    and the time part of the parsed datetime. *)
Lemma isoformat_replace_tzinfo_none (d : datetime) :
  datetime_isoformat (replace_tzinfo_none d)
  = String.append (dt_date_part d) (String.append "T" (dt_time_part d)).
Proof.
  unfold datetime_isoformat.
  change (tz_suffix (dt_tz (replace_tzinfo_none d))) with "".
  rewrite string_append_empty_r. reflexivity.
Qed.

(** The scan is requested with the filter [build_filter] returns. *)
Lemma get_batches_filter (fromisoformat : string -> option datetime)
  (s : Stream) (start_value : Value) (scan : Expr -> Reader) :
  get_batches fromisoformat s start_value scan =
  match build_filter fromisoformat (replication_key s) start_value with
  | Ok e => Ok (sort_wrapper s (scan e))
  | Err err => Err err
  end.
Proof. reflexivity. Qed.

(** A falsy starting value gives [AlwaysTrue], whatever the key. *)
Lemma get_batches_falsy_start (fromisoformat : string -> option datetime)
  (s : Stream) (start_value : Value) (scan : Expr -> Reader) :
  truthy start_value = false ->
  get_batches fromisoformat s start_value scan = Ok (sort_wrapper s (scan AlwaysTrue)).
Proof.
  intros Hf. rewrite get_batches_filter. unfold build_filter. rewrite Hf. reflexivity.
Qed.

Definition table_b : Table := mkTable [(1, "b")] [mkSortField 1 Asc].

Definition stream_b : Stream :=
  mkStream table_b (Some "b") [("b", mkFieldSchema None ["integer"])].

(** A table layer that tells the two kinds of filter apart. *)
Definition scan_probe (e : Expr) : Reader :=
  match e with AlwaysTrue => reader_b | GreaterThan _ _ => mkReader ["b"] [] end.

(** C2 fails: a present starting value [0] is falsy, so the scan runs
    with [AlwaysTrue] and not with [GreaterThan("b", 0)]. *)
Lemma get_batches_zero_cursor_unfiltered :
  replication_key stream_b = Some "b" /\
  get_batches fromisoformat_basic stream_b (VInt 0) scan_probe
  = Ok (sort_wrapper stream_b (scan_probe AlwaysTrue)) /\
  get_batches fromisoformat_basic stream_b (VInt 0) scan_probe
  <> Ok (sort_wrapper stream_b (scan_probe (GreaterThan "b" (VInt 0)))).
Proof. vm_compute. repeat split. discriminate. Qed.

(** C2 (amended): for a stream whose replication key is [k] and a truthy
    starting value, the scan is requested with [GreaterThan(k, value)]; a
    string value is parsed with [fromisoformat] and embedded as the parsed
    datetime's date part, ["T"] and time part, without UTC offset. *)
Theorem get_batches_greater_than (fromisoformat : string -> option datetime)
  (s : Stream) (k : string) (start_value : Value) (scan : Expr -> Reader) :
  replication_key s = Some k ->
  truthy start_value = true ->
  match start_value with
  | VStr str =>
      forall d, fromisoformat str = Some d ->
      get_batches fromisoformat s start_value scan =
      Ok (sort_wrapper s (scan (GreaterThan k
            (VStr (String.append (dt_date_part d) (String.append "T" (dt_time_part d)))))))
  | v =>
      get_batches fromisoformat s start_value scan =
      Ok (sort_wrapper s (scan (GreaterThan k v)))
  end.
Proof.
  intros Hk Ht. rewrite get_batches_filter, Hk. unfold build_filter. rewrite Ht.
  destruct start_value; try reflexivity.
  intros d Hd. rewrite Hd, isoformat_replace_tzinfo_none. reflexivity.
Qed.

Lemma get_batches_greater_than_witness :
  truthy (VStr "2023-01-01T10:20:30+02:00") = true /\
  get_batches fromisoformat_basic stream_b (VStr "2023-01-01T10:20:30+02:00") scan_probe
  = Ok (sort_wrapper stream_b
          (scan_probe (GreaterThan "b" (VStr "2023-01-01T10:20:30")))).
Proof.
  split; [reflexivity |].
  pose proof (get_batches_greater_than fromisoformat_basic stream_b "b"
                (VStr "2023-01-01T10:20:30+02:00") scan_probe eq_refl eq_refl) as H.
  rewrite (H (mkDatetime 2023 1 1 10 20 30 0 (Some 120%Z))) by reflexivity.
  vm_compute. reflexivity.
Defined.

Definition stream_nokey : Stream := mkStream (mkTable [(1, "b")] []) None [].

(** C4: a stream with no replication key (none, or an empty name) starts
    from no value whatever its stored state and start date, and a falsy
    starting value ([None] on a first sync) gives a scan with
    [AlwaysTrue]. *)
Theorem get_batches_no_key_or_first_sync_always_true
  (fromisoformat : string -> option datetime) (compare_start_date : Value -> Value -> Value)
  (s : Stream) (scan : Expr -> Reader) :
  (key_truthy (replication_key s) = false ->
   forall (state : BookmarkState) (start_date : Value),
   get_batches fromisoformat s
     (starting_replication_value compare_start_date s state start_date) scan
   = Ok (sort_wrapper s (scan AlwaysTrue))) /\
  (forall start_value, truthy start_value = false ->
   get_batches fromisoformat s start_value scan = Ok (sort_wrapper s (scan AlwaysTrue))).
Proof.
  split.
  - intros Hk state start_date. apply get_batches_falsy_start.
    unfold starting_replication_value. rewrite Hk. reflexivity.
  - intros v Hv. apply get_batches_falsy_start, Hv.
Qed.

Lemma get_batches_no_key_or_first_sync_always_true_witness :
  get_batches fromisoformat_basic stream_nokey
    (starting_replication_value (fun v _ => v) stream_nokey
       (mkBookmarkState (Some "b") (VStr "2023-01-01T00:00:00")) (VStr "2022-01-01"))
    scan_probe = Ok ([batch_b], None) /\
  get_batches fromisoformat_basic stream_b VNone scan_probe = Ok ([batch_b], None).
Proof.
  split.
  - rewrite (proj1 (get_batches_no_key_or_first_sync_always_true fromisoformat_basic
                      (fun v _ => v) stream_nokey scan_probe) eq_refl).
    reflexivity.
  - rewrite (proj2 (get_batches_no_key_or_first_sync_always_true fromisoformat_basic
                      (fun v _ => v) stream_b scan_probe) VNone eq_refl).
    reflexivity.
Defined.

(** ** An unparseable cursor *)

(** C5 fails: the empty string cannot be parsed, but it is falsy, so no
    parse is attempted and the whole table is scanned and emitted. *)
Lemma get_records_empty_cursor_scans :
  fromisoformat_basic "" = None /\
  get_records fromisoformat_basic stream_b (VStr "") scan_probe
  = ([[("b", VInt 2)]; [("b", VInt 1)]], None).
Proof. vm_compute. split; reflexivity. Qed.

(** C5 (amended): a non-empty starting string that [fromisoformat]
    rejects makes the generator raise [ValueError] before it yields any
    record. *)
Theorem get_records_bad_cursor_raises (fromisoformat : string -> option datetime)
  (s : Stream) (str : string) (scan : Expr -> Reader) :
  str <> "" -> fromisoformat str = None ->
  get_records fromisoformat s (VStr str) scan
  = ([], Some (ValueError "Invalid isoformat string")).
Proof.
  intros Hne Hp. unfold get_records. rewrite get_batches_filter.
  unfold build_filter. simpl.
  destruct (String.eqb_spec str "") as [Heq | _]; [contradiction |]. simpl.
  rewrite Hp. reflexivity.
Qed.

Lemma get_records_bad_cursor_raises_witness :
  get_records fromisoformat_basic stream_b (VStr "yesterday") scan_probe
  = ([], Some (ValueError "Invalid isoformat string")).
Proof.
  apply get_records_bad_cursor_raises; [discriminate | reflexivity].
Defined.

(* ================================================================== *)
(** * Further properties of the stream *)

(** ** Strings *)

Lemma string_length_append (a b : string) :
  String.length (String.append a b) = String.length a + String.length b.
Proof.
  induction a as [| c a IH]; [reflexivity |].
  change (S (String.length (String.append a b)) = S (String.length a + String.length b)).
  by rewrite IH.
Qed.

Lemma substring_prefix_append (a b : string) :
  String.substring 0 (String.length a) (String.append a b) = a.
Proof.
  induction a as [| c a IH]; [change (String.substring 0 0 b = ""); by destruct b |].
  change (String c (String.substring 0 (String.length a) (String.append a b)) = String c a).
  by rewrite IH.
Qed.

Lemma substring_prefix_short (n : nat) (s : string) :
  String.length s <= n -> String.substring 0 n s = s.
Proof.
  revert n; induction s as [| c s IH]; intros n Hn; destruct n; simpl in *;
    try reflexivity; try lia.
  f_equal. apply IH. lia.
Qed.

Lemma substring_prefix_length (n : nat) (s : string) :
  String.length (String.substring 0 n s) <= n.
Proof.
  revert n; induction s as [| c s IH]; intros n; destruct n; simpl; try lia.
  specialize (IH n). lia.
Qed.

Lemma str_prefix_idem (n : nat) (s : string) :
  str_prefix n (str_prefix n s) = str_prefix n s.
Proof. unfold str_prefix. apply substring_prefix_short, substring_prefix_length. Qed.

Lemma digits_aux_length (fuel n : nat) (acc : string) (k : nat) :
  n < 10 ^ k -> 1 <= k ->
  String.length (digits_aux fuel n acc) <= k + String.length acc.
Proof.
  revert n acc k; induction fuel as [| f IH]; intros n acc k Hn Hk; simpl; [lia |].
  destruct (Nat.ltb_spec n 10) as [Hlt | Hge]; simpl; [lia |].
  destruct k as [| [| k]]; [lia | simpl in Hn; lia |].
  specialize (IH (n / 10) (String (ascii_of_nat (48 + n mod 10)) acc) (S k)).
  simpl in IH. rewrite Nat.pow_succ_r' in Hn.
  assert (n / 10 < 10 ^ S k) by (apply Nat.Div0.div_lt_upper_bound; lia).
  specialize (IH H ltac:(lia)). lia.
Qed.

Lemma concat_zeros_length (m : nat) :
  String.length (String.concat "" (List.repeat "0" m)) = m.
Proof.
  induction m as [| [| m] IH]; [reflexivity | reflexivity |].
  change (String.length (String.append "0" (String.append ""
            (String.concat "" (List.repeat "0" (S m))))) = S (S m)).
  rewrite !string_length_append, IH. reflexivity.
Qed.

Lemma zpad_length (w n : nat) :
  1 <= w -> n < 10 ^ w -> String.length (zpad w n) = w.
Proof.
  intros Hw Hn. unfold zpad. rewrite string_length_append, concat_zeros_length.
  pose proof (digits_aux_length (S n) n "" w Hn Hw) as H.
  change (String.length "") with 0 in H. unfold digits. lia.
Qed.

Definition date_of (d : datetime) : date := mkDate (dt_year d) (dt_month d) (dt_day d).

Lemma date_isoformat_length (d : date) :
  d_year d < 10 ^ 4 -> d_month d < 10 ^ 2 -> d_day d < 10 ^ 2 ->
  String.length (date_isoformat d) = 10.
Proof.
  intros Hy Hm Hd. unfold date_isoformat.
  change (String.length (String.append (zpad 4 (d_year d)) (String.append "-"
           (String.append (zpad 2 (d_month d)) (String.append "-" (zpad 2 (d_day d)))))) = 10).
  rewrite !string_length_append, !zpad_length by lia. reflexivity.
Qed.

(** ** Date formatting *)

(** A date with Python's field ranges (year at most 9999) is formatted to
    its whole ISO form: the truncation to 10 characters cuts nothing. *)
Theorem format_date_date_whole (d : date) :
  d_year d < 10 ^ 4 -> d_month d < 10 ^ 2 -> d_day d < 10 ^ 2 ->
  _format_date (VDate d) = VStr (date_isoformat d).
Proof.
  intros Hy Hm Hd. simpl. f_equal. unfold str_prefix.
  apply substring_prefix_short. rewrite date_isoformat_length by assumption. lia.
Qed.

Lemma format_date_date_whole_witness :
  _format_date (VDate (mkDate 987 6 5)) = VStr (date_isoformat (mkDate 987 6 5)).
Proof. apply format_date_date_whole; simpl; lia. Defined.

(** A datetime, aware or naive, is formatted exactly like its calendar
    date: the time and the UTC offset are dropped, not applied. *)
Theorem format_date_datetime_as_date (d : datetime) :
  dt_year d < 10 ^ 4 -> dt_month d < 10 ^ 2 -> dt_day d < 10 ^ 2 ->
  _format_date (VDatetime d) = _format_date (VDate (date_of d)).
Proof.
  intros Hy Hm Hd. simpl. f_equal. unfold str_prefix, datetime_isoformat.
  change (dt_date_part d) with (date_isoformat (date_of d)).
  rewrite <- (date_isoformat_length (date_of d)) by assumption.
  rewrite substring_prefix_append. symmetry. apply substring_prefix_short. lia.
Qed.

Lemma format_date_datetime_as_date_witness :
  _format_date (VDatetime (mkDatetime 2023 5 17 23 30 0 0 (Some (-300)%Z)))
  = VStr "2023-05-17".
Proof.
  rewrite format_date_datetime_as_date by (simpl; lia). vm_compute. reflexivity.
Defined.

Lemma apply_formatter_idem (f : Formatter) (v : Value) :
  apply_formatter f (apply_formatter f v) = apply_formatter f v.
Proof.
  destruct f; simpl; [| destruct v; reflexivity | reflexivity].
  destruct v; simpl; try reflexivity; by rewrite str_prefix_idem.
Qed.

(** Formatting is idempotent: a record formatted once is formatted to
    itself. *)
Theorem format_record_idempotent (record r : Row) (formatters : gmap string Formatter) :
  _format_record record formatters = Ok r -> _format_record r formatters = Ok r.
Proof.
  revert r; induction record as [| [f v] record IH]; intros r H; simpl in H.
  - injection H as <-. reflexivity.
  - destruct (formatters !! f) as [fm |] eqn:Hf; [| discriminate].
    destruct (_format_record record formatters) as [r' |] eqn:Hr; [| discriminate].
    injection H as <-. simpl. rewrite Hf, (IH r' eq_refl), apply_formatter_idem.
    reflexivity.
Qed.

Lemma format_record_idempotent_witness :
  _format_record [("ts", VStr "2023-05-17")] (_create_formatters example_props)
  = Ok [("ts", VStr "2023-05-17")].
Proof.
  apply (format_record_idempotent [("ts", VStr "2023-05-17T10:00:00")]).
  vm_compute. reflexivity.
Defined.

(** ** Schema lookups *)

Lemma last_binding_aux (field : string) (props : list (string * FieldSchema)) :
  forall acc : option FieldSchema,
  fold_left (fun acc '(k, schema) => if String.eqb k field then Some schema else acc)
    props acc <> None <-> acc <> None \/ In field (map fst props).
Proof.
  induction props as [| [k schema] props IH]; intros acc; simpl.
  - tauto.
  - rewrite IH. destruct (String.eqb_spec k field) as [-> | Hne].
    + split; [intros _; right; left; reflexivity | intros _; left; discriminate].
    + intuition congruence.
Qed.

Lemma last_binding_in (field : string) (props : list (string * FieldSchema)) :
  last_binding field props <> None <-> In field (map fst props).
Proof. unfold last_binding. rewrite last_binding_aux. intuition. Qed.

(** [_format_record] with the schema's formatters succeeds exactly when
    every field of the row is a property of the schema. *)
Theorem format_record_ok_iff (props : list (string * FieldSchema)) (record : Row) :
  (exists r, _format_record record (_create_formatters props) = Ok r) <->
  Forall (fun f => In f (map fst props)) (map fst record).
Proof.
  induction record as [| [f v] record IH]; simpl.
  - split; [constructor | eauto].
  - rewrite create_formatters_lookup, Forall_cons, <- IH, <- last_binding_in.
    destruct (last_binding f props) as [schema |]; simpl.
    + destruct (_format_record record (_create_formatters props)) as [r |].
      * split; [intros _; split; [discriminate | eauto] | eauto].
      * split; [intros [r H]; discriminate | intros [_ [r H]]; discriminate].
    + split; [intros [r H]; discriminate | intros [H _]; congruence].
Qed.

(** ** The sort wrapper and the sorted batches *)

(** When the sort key, if the wrapper sorts, is a column of the scan's
    schema, the wrapper raises nothing and keeps the batches, in order,
    each with the same rows; over the whole scan it only reorders rows. *)
Theorem sort_wrapper_perm (s : Stream) (reader : Reader) :
  (key_truthy (replication_key s) && negb (is_sorted s) = true ->
   key_name (replication_key s) ∈ reader_schema reader) ->
  snd (sort_wrapper s reader) = None /\
  Forall2 (@Permutation Row) (reader_batches reader) (fst (sort_wrapper s reader)) /\
  Permutation (concat (reader_batches reader)) (concat (fst (sort_wrapper s reader))).
Proof.
  intros Hk.
  assert (H : snd (sort_wrapper s reader) = None /\
              Forall2 (@Permutation Row) (reader_batches reader) (fst (sort_wrapper s reader))).
  { unfold sort_wrapper. destruct (_ && _) eqn:Hc.
    - unfold _create_sorted_batch_reader.
      rewrite sorted_batch_generator_column by exact (Hk eq_refl). split; [reflexivity |].
      simpl. induction (reader_batches reader) as [| b bs IH]; simpl; constructor;
        [apply isort_perm | exact IH].
    - split; [reflexivity |]. simpl.
      induction (reader_batches reader) as [| b bs IH]; constructor; [reflexivity | exact IH]. }
  destruct H as [Hn H]. split; [exact Hn |]. split; [exact H |].
  induction H as [| b b' bs bs' Hb _ IH]; simpl; [reflexivity |].
  by apply Permutation_app.
Qed.

Definition stream_unsorted_b : Stream := mkStream (mkTable [(1, "b")] []) (Some "b") [].

Lemma sort_wrapper_perm_witness :
  snd (sort_wrapper stream_unsorted_b reader_b) = None /\
  Forall2 (@Permutation Row) (reader_batches reader_b) (fst (sort_wrapper stream_unsorted_b reader_b)) /\
  Permutation (concat (reader_batches reader_b)) (concat (fst (sort_wrapper stream_unsorted_b reader_b))).
Proof. apply sort_wrapper_perm. intros _. by left. Defined.

(** When the wrapper sorts on a key that is not a column of the scan's
    schema and the scan has a batch, iterating [get_records] yields no
    record and raises [ArrowInvalid]. *)
Theorem get_records_missing_sort_column (fromisoformat : string -> option datetime)
  (s : Stream) (start_value : Value) (scan : Expr -> Reader) (e : Expr) :
  build_filter fromisoformat (replication_key s) start_value = Ok e ->
  key_truthy (replication_key s) && negb (is_sorted s) = true ->
  key_name (replication_key s) ∉ reader_schema (scan e) ->
  reader_batches (scan e) <> [] ->
  exists msg, get_records fromisoformat s start_value scan = ([], Some (ArrowInvalid msg)).
Proof.
  intros He Hc Hk Hb. unfold get_records, get_batches. rewrite He. simpl.
  unfold sort_wrapper. rewrite Hc. unfold _create_sorted_batch_reader.
  destruct (reader_batches (scan e)) as [| b bs]; [contradiction |]. simpl.
  unfold sort_by. rewrite bool_decide_eq_false_2 by exact Hk. simpl. eauto.
Qed.

Lemma get_records_missing_sort_column_witness :
  exists msg, get_records fromisoformat_basic stream_unsorted_b VNone
                (fun _ => mkReader ["a"] [batch_b]) = ([], Some (ArrowInvalid msg)).
Proof.
  apply (get_records_missing_sort_column fromisoformat_basic stream_unsorted_b VNone
           (fun _ => mkReader ["a"] [batch_b]) AlwaysTrue);
    [reflexivity | reflexivity | simpl; set_solver | discriminate].
Defined.

Lemma Sorted_suffix {A} (R : A -> A -> Prop) (l1 l2 : list A) :
  Sorted R (l1 ++ l2) -> Sorted R l2.
Proof.
  induction l1 as [| x l1 IH]; simpl; [tauto |].
  intros H. apply Sorted_inv in H as [H _]. exact (IH H).
Qed.

Lemma sorted_nulls_tail (key : string) (r : Row) (l : list Row) :
  Sorted (fun r1 r2 => row_le key r1 r2 = true) (r :: l) ->
  is_null (row_get key r) = true ->
  Forall (fun r' => is_null (row_get key r') = true) l.
Proof.
  revert r; induction l as [| y l IH]; intros r Hs Hn; constructor.
  - apply Sorted_inv in Hs as [_ Hhd]. apply HdRel_inv in Hhd.
    unfold row_le, key_le in Hhd. rewrite Hn in Hhd. exact Hhd.
  - apply Sorted_inv in Hs as [Hs Hhd]. apply HdRel_inv in Hhd.
    unfold row_le, key_le in Hhd. rewrite Hn in Hhd. exact (IH y Hs Hhd).
Qed.

(** In a sorted batch every row after a row with a null key has a null
    key: nulls come last. *)
Theorem sort_by_nulls_last (columns : list string) (batch : Batch) (sort_key : string)
  (l1 : list Row) (r : Row) (l2 : list Row) :
  sort_by columns batch sort_key = Ok ((l1 ++ r :: l2)%list) ->
  is_null (row_get sort_key r) = true ->
  Forall (fun r' => is_null (row_get sort_key r') = true) l2.
Proof.
  intros Hb Hn. unfold sort_by in Hb. case_bool_decide; [| discriminate].
  injection Hb as Hb.
  pose proof (isort_sorted (row_le sort_key) (row_le_total sort_key) batch) as Hs.
  rewrite Hb in Hs.
  exact (sorted_nulls_tail sort_key r l2 (Sorted_suffix _ l1 _ Hs) Hn).
Qed.

Lemma sort_by_nulls_last_witness :
  Forall (fun r' => is_null (row_get "k" r') = true) [[("k", VNone); ("id", VInt 3)]].
Proof.
  apply (sort_by_nulls_last ["k"; "id"]
           [[("k", VNone); ("id", VInt 1)]; [("k", VInt 7)]; [("k", VNone); ("id", VInt 3)]]
           "k" [[("k", VInt 7)]] [("k", VNone); ("id", VInt 1)]);
    vm_compute; reflexivity.
Defined.

(** ** The filter drops the UTC offset *)

(** Two cursor strings that parse to the same local date and time give
    the same filter, whatever their UTC offsets: the offset is removed,
    not applied. *)
Theorem build_filter_ignores_offset (fromisoformat : string -> option datetime)
  (k : option string) (s1 s2 : string) (d1 d2 : datetime) :
  s1 <> "" -> s2 <> "" ->
  fromisoformat s1 = Some d1 -> fromisoformat s2 = Some d2 ->
  replace_tzinfo_none d1 = replace_tzinfo_none d2 ->
  build_filter fromisoformat k (VStr s1) = build_filter fromisoformat k (VStr s2).
Proof.
  intros H1 H2 Hp1 Hp2 Hd. unfold build_filter. simpl.
  destruct (String.eqb_spec s1 "") as [| _]; [contradiction |].
  destruct (String.eqb_spec s2 "") as [| _]; [contradiction |].
  simpl. rewrite Hp1, Hp2, Hd. reflexivity.
Qed.

Lemma build_filter_ignores_offset_witness :
  build_filter fromisoformat_basic (Some "ts") (VStr "2023-01-01T10:00:00+02:00")
  = build_filter fromisoformat_basic (Some "ts") (VStr "2023-01-01T10:00:00-05:00").
Proof.
  apply (build_filter_ignores_offset fromisoformat_basic (Some "ts") _ _
           (mkDatetime 2023 1 1 10 0 0 0 (Some 120%Z))
           (mkDatetime 2023 1 1 10 0 0 0 (Some (-300)%Z)));
    first [discriminate | reflexivity].
Defined.

(** ** What [get_records] yields *)

Lemma emit_records_spec (rows : list Row) (formatters : gmap string Formatter) :
  match emit_records rows formatters with
  | (out, None) => Forall2 (fun r r' => _format_record r formatters = Ok r') rows out
  | (out, Some e) =>
      exists pre r rest, rows = (pre ++ r :: rest)%list /\
        Forall2 (fun r r' => _format_record r formatters = Ok r') pre out /\
        _format_record r formatters = Err e
  end.
Proof.
  induction rows as [| record rows IH]; simpl; [constructor |].
  destruct (_format_record record formatters) as [r |] eqn:Hr.
  - destruct (emit_records rows formatters) as [out [e |]].
    + destruct IH as [pre [r0 [rest [-> [Hpre He]]]]].
      exists (record :: pre), r0, rest. split; [reflexivity |]. split; [| exact He].
      constructor; assumption.
    + constructor; assumption.
  - exists [], record, rows. split; [reflexivity |]. split; [constructor | exact Hr].
Qed.

(** Once the scan is requested, [get_records] yields one formatted record
    per row of the yielded batches, in batch and row order; if a row cannot
    be formatted it yields the records of the rows before it and then
    raises that row's error; if every row is formatted, it ends with the
    batch reader's own error, if any. *)
Theorem get_records_yields (fromisoformat : string -> option datetime)
  (s : Stream) (start_value : Value) (scan : Expr -> Reader)
  (batches : list Batch) (reader_err : option PyError) :
  get_batches fromisoformat s start_value scan = Ok (batches, reader_err) ->
  match get_records fromisoformat s start_value scan with
  | (out, None) =>
      reader_err = None /\
      Forall2 (fun r r' => _format_record r (_create_formatters (properties s)) = Ok r')
        (concat batches) out
  | (out, Some e) =>
      (exists pre r rest, concat batches = (pre ++ r :: rest)%list /\
        Forall2 (fun r r' => _format_record r (_create_formatters (properties s)) = Ok r')
          pre out /\
        _format_record r (_create_formatters (properties s)) = Err e) \/
      (reader_err = Some e /\
       Forall2 (fun r r' => _format_record r (_create_formatters (properties s)) = Ok r')
         (concat batches) out)
  end.
Proof.
  intros Hb. unfold get_records. rewrite Hb.
  pose proof (emit_records_spec (concat batches) (_create_formatters (properties s))) as H.
  destruct (emit_records (concat batches) (_create_formatters (properties s)))
    as [out [e |]].
  - left. exact H.
  - destruct reader_err as [e |].
    + right. split; [reflexivity | exact H].
    + split; [reflexivity | exact H].
Qed.

Lemma get_records_yields_witness :
  None = @None PyError /\
  Forall2 (fun r r' => _format_record r (_create_formatters (properties stream_b)) = Ok r')
    (concat [batch_b]) [[("b", VInt 2)]; [("b", VInt 1)]].
Proof.
  pose proof (get_records_yields fromisoformat_basic stream_b VNone scan_probe [batch_b]
                None eq_refl) as H.
  vm_compute in H. vm_compute. exact H.
Defined.

Lemma init_stream_never_sorts_witness :
  key_truthy (replication_key (mkStream table_a (Some "a") []))
  && negb (is_sorted (mkStream table_a (Some "a") [])) = false.
Proof. apply (init_stream_never_sorts table_a []). reflexivity. Defined.
